(** * A shallow embedding of the Flask recipe service (src/main.py)

    The service exposes [GET /] and five routes on [/recipes], each one
    a Python function that talks to MySQL through [mysql.connector].
    We model
    - JSON request bodies as the values Python's [json] module returns
      (dicts as association lists; floats are left out), a [str] as its
      UTF-8 bytes,
    - the database as a list of rows with an id counter, a server
      clock and a count of open connections,
    - Python exceptions as the error half of a state/exception monad,
      so that [try]/[except]/[finally] are ordinary combinators. *)

From Stdlib Require Import String Ascii List ZArith Bool Lia.
Import ListNotations.
Open Scope string_scope.
Open Scope Z_scope.

(** ** JSON values as [request.get_json()] returns them *)

Set Warnings "-register-all".

(** [JStr s]: the Python [str] whose UTF-8 encoding is [s] (a lone
    surrogate, which a JSON escape can produce, in the three-byte form
    of the [surrogatepass] error handler [json] decodes with). *)
Inductive jval : Type :=
| JNull
| JBool (b : bool)
| JInt (z : Z)
| JStr (s : string)
| JList (l : list jval)
| JObj (kv : list (string * jval)).

(** Python's truth value of a JSON value ([if not data[field]]). *)
Definition truthy (v : jval) : bool :=
  match v with
  | JNull => false
  | JBool b => b
  | JInt z => negb (z =? 0)
  | JStr s => negb (String.eqb s "")
  | JList l => negb (List.length l =? 0)%nat
  | JObj kv => negb (List.length kv =? 0)%nat
  end.

(** [json.loads] keeps the last binding of a repeated key. *)
Definition dict_get (k : string) (kv : list (string * jval)) : option jval :=
  match find (fun p => String.eqb (fst p) k) (rev kv) with
  | Some (_, v) => Some v
  | None => None
  end.

(** ** Python exceptions and the handlers' monad *)

Inductive exn : Type :=
| ValueError      (* int("abc") *)
| TypeError       (* int([1]), 'title' in 5, "s"['title'] *)
| DBError         (* mysql.connector.Error *)
| BadRequest.     (* request.get_json() on a body that is not JSON *)

Inductive res (A : Type) : Type :=
| Ok (a : A)
| Raise (e : exn).
Arguments Ok {A} a.
Arguments Raise {A} e.

(** A row of the [recipes] table. *)
Record recipe : Type := mkRecipe {
  id : Z;
  title : string;
  making_time : string;
  serves : string;
  ingredients : string;
  cost : Z;
  created_at : Z;
  updated_at : Z
}.

(** The state a request handler sees: the table, the next
    AUTO_INCREMENT value, the server clock, the number of open
    connections, and whether the server accepts connections and
    queries. *)
Record world : Type := mkWorld {
  rows : list recipe;
  next_id : Z;
  clock : Z;
  open_conns : nat;
  db_reachable : bool;
  db_query_ok : bool
}.

Definition M (A : Type) : Type := world -> res A * world.

Definition ret {A} (a : A) : M A := fun w => (Ok a, w).

Definition bind {A B} (m : M A) (k : A -> M B) : M B :=
  fun w => match m w with
           | (Ok a, w1) => k a w1
           | (Raise e, w1) => (Raise e, w1)
           end.

Definition raise {A} (e : exn) : M A := fun w => (Raise e, w).

(** [try: m except: h] *)
Definition try_except {A} (m : M A) (h : exn -> M A) : M A :=
  fun w => match m w with
           | (Ok a, w1) => (Ok a, w1)
           | (Raise e, w1) => h e w1
           end.

(** [try: m finally: f] *)
Definition try_finally {A} (m : M A) (f : M unit) : M A :=
  fun w => match m w with
           | (r, w1) =>
               match f w1 with
               | (Ok _, w2) => (r, w2)
               | (Raise e, w2) => (Raise e, w2)
               end
           end.

Notation "x <- m ;; k" := (bind m (fun x => k))
  (at level 61, m at next level, right associativity).
Notation "m ;;; k" := (bind m (fun _ => k))
  (at level 61, right associativity).

(** ** Text: a Python [str] as its UTF-8 bytes *)

Definition code (c : ascii) : Z := Z.of_nat (nat_of_ascii c).

Definition cont_byte (c : ascii) : bool := (128 <=? code c) && (code c <? 192).

(** The code points of a UTF-8 byte string; [surr] lets surrogates
    through, as the [surrogatepass] error handler does. *)
Fixpoint utf8_decode (surr : bool) (l : list ascii) : option (list Z) :=
  match l with
  | [] => Some []
  | c0 :: r0 =>
      let b0 := code c0 in
      if b0 <? 128 then option_map (cons b0) (utf8_decode surr r0)
      else if b0 <? 194 then None
      else if b0 <? 224 then
        match r0 with
        | c1 :: r1 =>
            if cont_byte c1
            then option_map (cons ((b0 - 192) * 64 + (code c1 - 128))) (utf8_decode surr r1)
            else None
        | [] => None
        end
      else if b0 <? 240 then
        match r0 with
        | c1 :: c2 :: r2 =>
            let cp := (b0 - 224) * 4096 + (code c1 - 128) * 64 + (code c2 - 128) in
            if (cont_byte c1 && cont_byte c2 && (2048 <=? cp) &&
                (surr || negb ((55296 <=? cp) && (cp <=? 57343))))%bool
            then option_map (cons cp) (utf8_decode surr r2)
            else None
        | _ => None
        end
      else if b0 <? 245 then
        match r0 with
        | c1 :: c2 :: c3 :: r3 =>
            let cp := (b0 - 240) * 262144 + (code c1 - 128) * 4096 +
                      (code c2 - 128) * 64 + (code c3 - 128) in
            if (cont_byte c1 && cont_byte c2 && cont_byte c3 &&
                (65536 <=? cp) && (cp <=? 1114111))%bool
            then option_map (cons cp) (utf8_decode surr r3)
            else None
        | _ => None
        end
      else None
  end.

(** [Py_UNICODE_ISSPACE] ([str.isspace], [str.strip()]), Unicode 14.0
    as in CPython 3.11. *)
Definition py_isspace (cp : Z) : bool :=
  (existsb (Z.eqb cp) [9; 10; 11; 12; 13; 28; 29; 30; 31; 32; 133; 160; 5760;
                       8232; 8233; 8239; 8287; 12288]
   || ((8192 <=? cp) && (cp <=? 8202)))%bool.

(** The code points of the digit zero of each run of ten Unicode
    decimal digits (category Nd), Unicode 14.0 as in CPython 3.11. *)
Definition decimal_zeros : list Z :=
  [48; 1632; 1776; 1984; 2406; 2534; 2662; 2790; 2918; 3046; 3174; 3302; 3430;
   3558; 3664; 3792; 3872; 4160; 4240; 6112; 6160; 6470; 6608; 6784; 6800;
   6992; 7088; 7232; 7248; 42528; 43216; 43264; 43472; 43504; 43600; 44016;
   65296; 66720; 68912; 69734; 69872; 69942; 70096; 70384; 70736; 70864;
   71248; 71360; 71472; 71904; 72016; 72784; 73040; 73120; 92768; 92864;
   92912; 120782; 120792; 120802; 120812; 120822; 123200; 123632; 125264;
   130032].

(** [Py_UNICODE_TODECIMAL] *)
Definition py_decimal (cp : Z) : option Z :=
  match find (fun z => (z <=? cp) && (cp <? z + 10))%bool decimal_zeros with
  | Some z => Some (cp - z)
  | None => None
  end.

(** ** Python's [int()] on a JSON value *)

Definition is_digit (c : ascii) : bool :=
  let n := nat_of_ascii c in (Nat.leb 48 n && Nat.leb n 57)%bool.

Definition digit_val (c : ascii) : Z := Z.of_nat (nat_of_ascii c) - 48.

(** [Py_ISSPACE]: the ASCII white space [int()] skips around its
    digits. *)
Definition is_space (c : ascii) : bool :=
  let n := nat_of_ascii c in
  (Nat.eqb n 32 || (Nat.leb 9 n && Nat.leb n 13))%bool.

Fixpoint drop_spaces (l : list ascii) : list ascii :=
  match l with
  | c :: r => if is_space c then drop_spaces r else l
  | [] => []
  end.

Definition strip (l : list ascii) : list ascii :=
  rev (drop_spaces (rev (drop_spaces l))).

(** Decimal digits, a single [_] allowed between two digits. *)
Fixpoint parse_digits (l : list ascii) (acc : Z) : option Z :=
  match l with
  | [] => Some acc
  | c :: r =>
      if is_digit c then parse_digits r (acc * 10 + digit_val c)
      else if Ascii.eqb c "_" then
        match r with
        | d :: r' => if is_digit d then parse_digits r' (acc * 10 + digit_val d)
                     else None
        | [] => None
        end
      else None
  end.

Definition parse_unsigned (l : list ascii) : option Z :=
  match l with
  | d :: _ => if is_digit d then parse_digits l 0 else None
  | [] => None
  end.

(** [_PyUnicode_TransformDecimalAndSpaceToASCII]: a code point below
    127 is kept, white space becomes a space, a decimal digit its ASCII
    digit, anything else ['?'] (CPython also cuts the text there; the
    ['?'] alone already makes the parse fail). *)
Definition int_char (cp : Z) : ascii :=
  if cp <? 127 then ascii_of_nat (Z.to_nat cp)
  else if py_isspace cp then " "%char
  else match py_decimal cp with
       | Some d => ascii_of_nat (48 + Z.to_nat d)
       | None => "?"%char
       end.

(** [sys.int_info.default_max_str_digits] *)
Definition int_max_str_digits : nat := 4300.

(** [int(s)] for a [str] [s]: [PyLong_FromString] in base 10 on the
    transformed text, which refuses more than [int_max_str_digits]
    digits. *)
Definition py_int_of_string (s : string) : res Z :=
  match utf8_decode true (list_ascii_of_string s) with
  | None => Raise ValueError   (* no [str] is encoded so *)
  | Some cps =>
      let l := strip (map int_char cps) in
      let r := match l with
               | "-"%char :: t => option_map Z.opp (parse_unsigned t)
               | "+"%char :: t => parse_unsigned t
               | _ => parse_unsigned l
               end in
      match r with
      | Some z =>
          if Nat.leb (List.length (filter is_digit l)) int_max_str_digits then Ok z
          else Raise ValueError
      | None => Raise ValueError
      end
  end.

(** [int(v)]: [bool] is a subclass of [int]; [None], [list] and [dict]
    raise [TypeError]. *)
Definition py_int (v : jval) : res Z :=
  match v with
  | JInt z => Ok z
  | JBool b => Ok (if b then 1 else 0)
  | JStr s => py_int_of_string s
  | JNull | JList _ | JObj _ => Raise TypeError
  end.

Example py_int_abc : py_int (JStr "abc") = Raise ValueError.
Proof. reflexivity. Qed.
Example py_int_150 : py_int (JStr " -1_50 ") = Ok (-150).
Proof. reflexivity. Qed.
(** [int('\u0663')] (ARABIC-INDIC DIGIT THREE) and [int('\xa05')]. *)
Example py_int_unicode :
  py_int (JStr (String "217"%char (String "163"%char ""))) = Ok 3 /\
  py_int (JStr (String "194"%char (String "160"%char "5"))) = Ok 5.
Proof. split; reflexivity. Qed.
(** A [str] of 4301 digits. *)
Example py_int_too_long :
  py_int (JStr (string_of_list_ascii (repeat "1"%char 4301))) = Raise ValueError.
Proof. vm_compute. reflexivity. Qed.

(** ** The database, through [mysql.connector]

    [str()] of an integer, used when MySQL stores an integer parameter
    in a text column. *)
Fixpoint dec_digits (fuel : nat) (n : Z) (acc : string) : string :=
  match fuel with
  | O => acc
  | S f =>
      let acc' := String (ascii_of_nat (48 + Z.to_nat (n mod 10))) acc in
      if n <? 10 then acc' else dec_digits f (n / 10) acc'
  end.

Definition dec_string (z : Z) : string :=
  if z <? 0 then "-" ++ dec_digits (Pos.size_nat (Z.to_pos (- z))) (- z) ""
  else dec_digits (Pos.size_nat (Z.to_pos z)) z "".

Example dec_string_150 : dec_string 150 = "150".
Proof. reflexivity. Qed.

(** Whether [z] has at most [int_max_str_digits] decimal digits: the
    condition under which [str(z)] and [int()] of its text do not raise,
    and under which [json.loads] accepts [z] written as a number. *)
Definition digits_ok (z : Z) : bool :=
  Nat.leb (String.length (dec_string (Z.abs z))) int_max_str_digits.

(** The documents [json.loads] turns into a value: it parses each
    integer literal with [int()], which refuses more than
    [int_max_str_digits] digits. *)
Fixpoint json_ok (v : jval) : bool :=
  match v with
  | JInt z => digits_ok z
  | JList l => forallb json_ok l
  | JObj kv => forallb (fun p => json_ok (snd p)) kv
  | JNull | JBool _ | JStr _ => true
  end.

(** The value a text column receives for a query parameter: the
    connector sends [str] as is, [int] and [bool] as numbers, and
    refuses [list] and [dict] with a [mysql.connector.Error]; [None]
    never reaches a query (the handlers reject falsy values first). *)
Definition text_of (v : jval) : option string :=
  match v with
  | JStr s => Some s
  | JInt z => Some (dec_string z)
  | JBool b => Some (if b then "1" else "0")
  | JNull | JList _ | JObj _ => None
  end.

Definition sql_text (v : jval) : M string :=
  match text_of v with
  | Some s => ret s
  | None => raise DBError
  end.

(** [get_db_connection()]: a new connection, or the connector's error
    (the [init_db] retry on a missing database ends in one or the
    other, which is what [db_reachable] records). *)
Definition get_db_connection : M unit :=
  fun w =>
    if db_reachable w then
      (Ok tt, {| rows := rows w; next_id := next_id w; clock := clock w;
                 open_conns := S (open_conns w);
                 db_reachable := db_reachable w; db_query_ok := db_query_ok w |})
    else (Raise DBError, w).

(** [conn.close()] *)
Definition conn_close : M unit :=
  fun w =>
    (Ok tt, {| rows := rows w; next_id := next_id w; clock := clock w;
               open_conns := Nat.pred (open_conns w);
               db_reachable := db_reachable w; db_query_ok := db_query_ok w |}).

(** [cursor.close()] and [conn.commit()] change nothing we observe. *)
Definition cursor_close : M unit := ret tt.
Definition commit : M unit := ret tt.

Definition set_rows (w : world) (rs : list recipe) (nid : Z) : world :=
  {| rows := rs; next_id := nid; clock := clock w; open_conns := open_conns w;
     db_reachable := db_reachable w; db_query_ok := db_query_ok w |}.

(** A statement runs when the server accepts queries, else raises. *)
Definition query {A} (f : world -> A * world) : M A :=
  fun w => if db_query_ok w then let (a, w1) := f w in (Ok a, w1)
           else (Raise DBError, w).

(** [SELECT ... FROM recipes WHERE id = %s] then [fetchone()]. *)
Definition select_by_id (i : Z) : M (option recipe) :=
  query (fun w => (find (fun r => id r =? i) (rows w), w)).

(** [SELECT ... FROM recipes] then [fetchall()]. *)
Definition select_all : M (list recipe) :=
  query (fun w => (rows w, w)).

(** Modelled from the spec: the [recipes] table definition (create.sql,
    not in the sources). [INSERT INTO recipes (title, making_time,
    serves, ingredients, cost) VALUES (...)]: the server assigns the
    AUTO_INCREMENT id and sets [created_at] and [updated_at] to the
    current time; [cursor.lastrowid] is the new id. *)
Definition insert_recipe (t mt sv ing : string) (c : Z) : M Z :=
  query (fun w =>
    let r := {| id := next_id w; title := t; making_time := mt; serves := sv;
                ingredients := ing; cost := c;
                created_at := clock w; updated_at := clock w |} in
    (next_id w, set_rows w (rows w ++ [r]) (next_id w + 1))).

(** Modelled from the spec: [UPDATE recipes SET title = %s, ...,
    cost = %s WHERE id = %s]; the table refreshes [updated_at] on
    update (create.sql, not in the sources). *)
Definition patch_row (i : Z) (t mt sv ing : string) (c now : Z) (r : recipe) : recipe :=
  if id r =? i then
    {| id := id r; title := t; making_time := mt; serves := sv;
       ingredients := ing; cost := c; created_at := created_at r; updated_at := now |}
  else r.

Definition update_row (i : Z) (t mt sv ing : string) (c : Z) : M unit :=
  query (fun w => (tt, set_rows w (map (patch_row i t mt sv ing c (clock w)) (rows w))
                                  (next_id w))).

(** [DELETE FROM recipes WHERE id = %s] *)
Definition delete_row (i : Z) : M unit :=
  query (fun w =>
    (tt, set_rows w (filter (fun r => negb (id r =? i)) (rows w)) (next_id w))).

(** ** Responses

    A handler returns [jsonify({...}), status] or [('', status)]. The
    JSON object's keys are [message], [recipe] (a one-element list
    holding what [fetchone()] returned) and [recipes]. *)
Inductive field : Type :=
| FMessage (m : string)
| FRecipe (l : list (option recipe))
| FRecipes (l : list recipe).

Inductive body : Type :=
| BJson (fs : list field)
| BText (s : string).

Record response : Type := mkResponse { status : Z; resp_body : body }.

Definition json_resp (fs : list field) (st : Z) : response :=
  {| status := st; resp_body := BJson fs |}.

Definition message (m : string) : response := json_resp [FMessage m] 200.

(** ** Request bodies *)

Definition lift {A} (r : res A) : M A :=
  match r with Ok a => ret a | Raise e => raise e end.

(** The part of a Content-Type header before its parameters. *)
Fixpoint mime_prefix (l : list ascii) : list ascii :=
  match l with
  | c :: r => if Ascii.eqb c ";" then [] else c :: mime_prefix r
  | [] => []
  end.

(** [str.strip()] on a header value (a [str] of Latin-1 characters, one
    per byte). *)
Fixpoint drop_py_spaces (l : list ascii) : list ascii :=
  match l with
  | c :: r => if py_isspace (code c) then drop_py_spaces r else l
  | [] => []
  end.

Definition header_strip (l : list ascii) : list ascii :=
  rev (drop_py_spaces (rev (drop_py_spaces l))).

(** [str.lower()] on a Latin-1 character. *)
Definition latin1_lower (c : ascii) : ascii :=
  let n := nat_of_ascii c in
  if ((Nat.leb 65 n && Nat.leb n 90) ||
      (Nat.leb 192 n && Nat.leb n 222 && negb (Nat.eqb n 215)))%bool
  then ascii_of_nat (n + 32) else c.

(** [request.mimetype]: [parse_options_header] keeps the part before the
    first [';'], stripped; the property lowercases it. *)
Definition mimetype (ct : string) : list ascii :=
  map latin1_lower (header_strip (mime_prefix (list_ascii_of_string ct))).

Definition starts_with (pre s : list ascii) : bool :=
  String.eqb (string_of_list_ascii (firstn (List.length pre) s)) (string_of_list_ascii pre).

Definition ends_with (suf s : list ascii) : bool :=
  let n := List.length s in let m := List.length suf in
  (Nat.leb m n && String.eqb (string_of_list_ascii (skipn (n - m) s)) (string_of_list_ascii suf))%bool.

(** [request.is_json]: the mimetype is [application/json], or starts
    with [application/] and ends with [+json]. *)
Definition is_json (ct : string) : bool :=
  let mt := mimetype ct in
  (String.eqb (string_of_list_ascii mt) "application/json"
   || (starts_with (list_ascii_of_string "application/") mt &&
       ends_with (list_ascii_of_string "+json") mt))%bool.

(** [request.get_json()] on the document [b] sent as body ([None] stands
    for a body that is not JSON): the parsed value, or an HTTP exception
    (a [BadRequest] or an unsupported media type), which the handlers'
    [except Exception] catches. *)
Definition get_json (ct : string) (b : option jval) : M jval :=
  if is_json ct then
    match b with
    | Some j => if json_ok j then ret j else raise BadRequest
    | None => raise BadRequest
    end
  else raise BadRequest.

Definition required_fields : list string :=
  ["title"; "making_time"; "serves"; "ingredients"; "cost"].

(** [field in data and data[field]] for every field, in order. *)
Fixpoint fields_ok (kv : list (string * jval)) (fs : list string) : bool :=
  match fs with
  | [] => true
  | f :: fs' =>
      match dict_get f kv with
      | None => false
      | Some v => (truthy v && fields_ok kv fs')%bool
      end
  end.

(** The field checks of both handlers on the parsed body. On a body that
    is not a JSON object, [field in data] either is false (the handler
    returns its failure message) or raises [TypeError], as does
    [data[field]] (the handler's [except Exception] returns the same
    failure message with nothing else done): we take the second road
    for all of them. *)
Definition check_fields (data : jval) : M bool :=
  match data with
  | JObj kv => ret (fields_ok kv required_fields)
  | _ => raise TypeError
  end.

(** [data[k]] on a dict that has [k]. *)
Definition getitem (data : jval) (k : string) : M jval :=
  match data with
  | JObj kv => match dict_get k kv with Some v => ret v | None => raise TypeError end
  | _ => raise TypeError
  end.

(** ** The handlers *)

(** [index()] *)
Definition index : M response := ret {| status := 404; resp_body := BText "" |}.

Definition create_failed : response := message "Recipe creation failed!".

(** The statements inside the inner [try] of [create_recipe]. *)
Definition create_insert (data : jval) (c : Z) : M response :=
  t <- getitem data "title" ;; mt <- getitem data "making_time" ;;
  sv <- getitem data "serves" ;; ing <- getitem data "ingredients" ;;
  t' <- sql_text t ;; mt' <- sql_text mt ;; sv' <- sql_text sv ;;
  ing' <- sql_text ing ;;
  recipe_id <- insert_recipe t' mt' sv' ing' c ;;
  commit ;;;
  r <- select_by_id recipe_id ;;
  match r with
  | None => ret create_failed
  | Some rc =>
      ret (json_resp [FMessage "Recipe successfully created!"; FRecipe [Some rc]] 200)
  end.

(** [create_recipe()]: POST /recipes. *)
Definition create_recipe (ct : string) (b : option jval) : M response :=
  try_except
    (if negb (String.eqb ct "application/json") then ret create_failed
     else if negb (is_json ct) then ret create_failed
     else
       data <- get_json ct b ;;
       ok <- check_fields data ;;
       if negb ok then ret create_failed
       else
         cv <- getitem data "cost" ;;
         cr <- try_except (c <- lift (py_int cv) ;; ret (Some c))
                 (fun e => match e with
                           | ValueError => ret None
                           | _ => raise e
                           end) ;;
         match cr with
         | None => ret create_failed
         | Some c =>
             if c <=? 0 then ret create_failed
             else
               get_db_connection ;;;
               try_finally
                 (try_except (create_insert data c)
                    (fun e => match e with
                              | DBError => ret create_failed
                              | _ => raise e
                              end))
                 (cursor_close ;;; conn_close)
         end)
    (fun _ => ret create_failed).

(** [get_recipes()]: GET /recipes. *)
Definition get_recipes : M response :=
  try_except
    (get_db_connection ;;;
     rs <- select_all ;;
     cursor_close ;;; conn_close ;;;
     match rs with
     | [] => ret (message "No recipes found")
     | _ => ret (json_resp [FRecipes rs] 200)
     end)
    (fun _ => ret (message "No recipes found")).

(** [get_recipe(id)]: GET /recipes/<int:id>. *)
Definition get_recipe (i : Z) : M response :=
  try_except
    (get_db_connection ;;;
     r <- select_by_id i ;;
     cursor_close ;;; conn_close ;;;
     match r with
     | Some rc => ret (json_resp [FMessage "Recipe details by id"; FRecipe [Some rc]] 200)
     | None => ret (message "No Recipe found")
     end)
    (fun _ => ret (message "No Recipe found")).

Definition update_failed : response := message "Recipe update failed!".

(** [update_recipe(id)]: PATCH /recipes/<int:id>. *)
Definition update_recipe (ct : string) (b : option jval) (i : Z) : M response :=
  try_except
    (data <- get_json ct b ;;
     ok <- check_fields data ;;
     if negb ok then ret update_failed
     else
       get_db_connection ;;;
       found <- select_by_id i ;;
       match found with
       | None => cursor_close ;;; conn_close ;;; ret (message "No Recipe found")
       | Some _ =>
           t <- getitem data "title" ;; mt <- getitem data "making_time" ;;
           sv <- getitem data "serves" ;; ing <- getitem data "ingredients" ;;
           cv <- getitem data "cost" ;; c <- lift (py_int cv) ;;
           t' <- sql_text t ;; mt' <- sql_text mt ;; sv' <- sql_text sv ;;
           ing' <- sql_text ing ;;
           update_row i t' mt' sv' ing' c ;;;
           commit ;;;
           r <- select_by_id i ;;
           cursor_close ;;; conn_close ;;;
           ret (json_resp [FMessage "Recipe successfully updated!"; FRecipe [r]] 200)
       end)
    (fun _ => ret update_failed).

(** [delete_recipe(id)]: DELETE /recipes/<int:id>. *)
Definition delete_recipe (i : Z) : M response :=
  try_except
    (get_db_connection ;;;
     found <- select_by_id i ;;
     match found with
     | None => cursor_close ;;; conn_close ;;; ret (message "No Recipe found")
     | Some _ =>
         delete_row i ;;; commit ;;; cursor_close ;;; conn_close ;;;
         ret (message "Recipe successfully removed!")
     end)
    (fun _ => ret (message "No Recipe found")).

(** ** The Flask router *)

Inductive meth : Type := GET | POST | PATCH | DELETE | PUT.

(** A request: method, path segments ([/recipes/3] is
    [["recipes"; "3"]]), Content-Type header and parsed body. *)
Record request : Type := mkRequest {
  method : meth;
  path : list string;
  content_type : string;
  req_body : option jval
}.

(** werkzeug's [<int:id>] converter on a path segment (a [str], as its
    UTF-8 bytes): the segment matches [\d+], one or more Unicode decimal
    digits, and [to_python] is [int()] of it. [None]: no match. *)
Definition int_segment (s : string) : option (res Z) :=
  match utf8_decode true (list_ascii_of_string s) with
  | Some ((_ :: _) as cps) =>
      if forallb (fun cp => match py_decimal cp with Some _ => true | None => false end) cps
      then Some (py_int_of_string s)
      else None
  | _ => None
  end.

Definition not_found : response := {| status := 404; resp_body := BText "Not Found" |}.
Definition method_not_allowed : response :=
  {| status := 405; resp_body := BText "Method Not Allowed" |}.
Definition internal_error : response :=
  {| status := 500; resp_body := BText "Internal Server Error" |}.

(** The routes registered with [@app.route]; any other path is
    answered by Flask with 404, a known path with another method
    with 405. werkzeug (3.x) picks the rule by path and method first,
    then converts the id; an exception of [int()] there is not a
    [ValidationError] and reaches Flask, which answers 500. *)
Definition dispatch (r : request) : M response :=
  match path r with
  | [] => match method r with GET => index | _ => ret method_not_allowed end
  | [s] =>
      if String.eqb s "recipes" then
        match method r with
        | POST => create_recipe (content_type r) (req_body r)
        | GET => get_recipes
        | _ => ret method_not_allowed
        end
      else ret not_found
  | [s; n] =>
      if String.eqb s "recipes" then
        match int_segment n with
        | Some v =>
            match method r, v with
            | GET, Ok i => get_recipe i
            | PATCH, Ok i => update_recipe (content_type r) (req_body r) i
            | DELETE, Ok i => delete_recipe i
            | (GET | PATCH | DELETE), Raise _ => ret internal_error
            | _, _ => ret method_not_allowed
            end
        | None => ret not_found
        end
      else ret not_found
  | _ => ret not_found
  end.

(** ** Sample states and requests *)

Definition w_empty : world :=
  {| rows := []; next_id := 1; clock := 100; open_conns := 0;
     db_reachable := true; db_query_ok := true |}.

Definition tea_body : jval :=
  JObj [("title", JStr "Tea"); ("making_time", JStr "5 min"); ("serves", JStr "1");
        ("ingredients", JStr "Water, Tea Leaves, Sugar"); ("cost", JInt 100)].

Definition tea_row : recipe :=
  {| id := 1; title := "Tea"; making_time := "5 min"; serves := "1";
     ingredients := "Water, Tea Leaves, Sugar"; cost := 100;
     created_at := 100; updated_at := 100 |}.

Definition w_tea : world :=
  {| rows := [tea_row]; next_id := 2; clock := 100; open_conns := 0;
     db_reachable := true; db_query_ok := true |}.

Example create_tea :
  create_recipe "application/json" (Some tea_body) w_empty
  = (Ok (json_resp [FMessage "Recipe successfully created!"; FRecipe [Some tea_row]] 200),
     w_tea).
Proof. reflexivity. Qed.

Example get_tea :
  dispatch {| method := GET; path := ["recipes"; "1"]; content_type := "";
              req_body := None |} w_tea
  = (Ok (json_resp [FMessage "Recipe details by id"; FRecipe [Some tea_row]] 200), w_tea).
Proof. reflexivity. Qed.

(** * Properties *)

Ltac unfold_m :=
  cbv beta iota zeta delta [create_recipe get_recipes get_recipe update_recipe
    delete_recipe create_insert try_except try_finally bind ret raise lift
    get_json check_fields getitem sql_text get_db_connection conn_close
    cursor_close commit query select_by_id select_all insert_recipe
    update_row delete_row] in *.

(** The field checks fail exactly when some required field is missing
    or falsy. *)
Lemma fields_ok_false kv fs :
  (exists f, In f fs /\
     (dict_get f kv = None \/ exists v, dict_get f kv = Some v /\ truthy v = false)) ->
  fields_ok kv fs = false.
Proof.
  induction fs as [|f fs IH]; simpl; intros [g [Hin Hg]]; [contradiction|].
  destruct Hin as [<-|Hin].
  - destruct Hg as [->|[v [-> Hv]]]; [reflexivity|now rewrite Hv].
  - destruct (dict_get f kv); [|reflexivity].
    rewrite IH by eauto. apply andb_false_r.
Qed.



(** Case split on the innermost [match] of the goal. *)
Ltac split_m :=
  repeat (cbn beta iota zeta in *;
          match goal with
          | |- context [match ?x with _ => _ end] =>
              lazymatch x with
              | context [match _ with _ => _ end] => fail
              | _ => destruct x eqn:?
              end
          end).

(** The same on a hypothesis. *)
Ltac split_m_in H :=
  repeat (cbn beta iota zeta delta [set_rows rows next_id clock open_conns
            db_reachable db_query_ok] in H;
          match type of H with
          | context [match ?x with _ => _ end] =>
              lazymatch x with
              | context [match _ with _ => _ end] => fail
              | _ => destruct x eqn:?
              end
          end).


(** The validation conditions of the spec, on a JSON object body. *)
Definition field_missing_or_empty (kv : list (string * jval)) : Prop :=
  exists f, In f required_fields /\
    (dict_get f kv = None \/ exists v, dict_get f kv = Some v /\ truthy v = false).




(** ** C1: the failures of POST /recipes *)





(** ** C4: refused creations insert nothing *)


Definition abc_kv : list (string * jval) :=
  [("title", JStr "Tea"); ("making_time", JStr "5 min"); ("serves", JStr "1");
   ("ingredients", JStr "Water"); ("cost", JStr "abc")].


(** ** C5: create, then read back *)

Definition created (r : recipe) : response :=
  json_resp [FMessage "Recipe successfully created!"; FRecipe [Some r]] 200.

Lemma find_id_self (r : recipe) (rs : list recipe) (i : Z) :
  find (fun x => id x =? i) rs = Some r ->
  find (fun x => id x =? id r) rs = Some r.
Proof.
  intros H. pose proof (find_some _ _ H) as [_ E]. apply Z.eqb_eq in E. now subst i.
Qed.

(** A successful creation leaves the new row findable by its id, with
    the database still up. *)
Lemma create_success_state ct b w r w' :
  create_recipe ct b w = (Ok (created r), w') ->
  find (fun x => id x =? id r) (rows w') = Some r /\
  db_reachable w' = true /\ db_query_ok w' = true.
Proof.
  intros H. unfold_m. split_m_in H; try discriminate;
    inversion H; subst; simpl in *;
    try (unfold create_failed, created, message, json_resp in *; congruence).
  repeat split; try assumption.
  eapply find_id_self; eassumption.
Qed.

(** C5. Right after a POST /recipes that created record [r], a
    GET /recipes/{id r} returns the very same record (id, fields and
    both timestamps) and leaves the world as it found it. *)
Theorem create_then_get_same_record ct b w r w' :
  create_recipe ct b w = (Ok (created r), w') ->
  get_recipe (id r) w' =
    (Ok (json_resp [FMessage "Recipe details by id"; FRecipe [Some r]] 200), w').
Proof.
  intros H. apply create_success_state in H as [F [R Q]].
  destruct w' as [rs nid clk oc reach qok]; simpl in *; subst reach qok.
  unfold get_recipe, try_except, bind, get_db_connection, select_by_id, query,
    cursor_close, conn_close, ret; simpl. rewrite F. reflexivity.
Qed.

Lemma create_then_get_same_record_witness :
  create_recipe "application/json" (Some tea_body) w_empty = (Ok (created tea_row), w_tea) /\
  get_recipe 1 w_tea =
    (Ok (json_resp [FMessage "Recipe details by id"; FRecipe [Some tea_row]] 200), w_tea).
Proof.
  assert (H : create_recipe "application/json" (Some tea_body) w_empty = (Ok (created tea_row), w_tea))
    by reflexivity.
  split; [exact H|].
  exact (create_then_get_same_record "application/json" (Some tea_body) w_empty tea_row w_tea H).
Defined.

(** ** C6: listing an empty table *)

(** C6 (amended). With no stored recipe, GET /recipes answers status
    200 with the body [{"message": "No recipes found"}]: a message and
    no [recipes] field (the same body a database error produces). *)
Theorem get_recipes_empty_message w :
  rows w = [] ->
  fst (get_recipes w) = Ok (json_resp [FMessage "No recipes found"] 200).
Proof.
  intros H. unfold_m. split_m; try reflexivity; simpl in *; subst; congruence.
Qed.

Lemma get_recipes_empty_message_witness :
  rows w_empty = [] /\
  fst (get_recipes w_empty) = Ok (json_resp [FMessage "No recipes found"] 200).
Proof.
  split; [reflexivity|]. apply get_recipes_empty_message. reflexivity.
Defined.

(** C6 fails as stated: the body for an empty table holds no sequence
    of records at all. *)
Lemma get_recipes_empty_no_sequence :
  fst (get_recipes w_empty) = Ok (json_resp [FMessage "No recipes found"] 200) /\
  forall rs, ~ In (FRecipes rs) [FMessage "No recipes found"].
Proof.
  split; [reflexivity|]. intros rs [H|H]; [discriminate|contradiction].
Qed.

(** ** C3: ids with no stored record *)

Lemma find_absent (i : Z) (rs : list recipe) :
  (forall r, In r rs -> id r <> i) -> find (fun x => id x =? i) rs = None.
Proof.
  intros H. destruct (find (fun x => id x =? i) rs) as [r|] eqn:F; [|reflexivity].
  destruct (find_some _ _ F) as [Hin E]. apply Z.eqb_eq in E. now destruct (H r Hin).
Qed.

Lemma get_recipe_absent i w :
  (forall r, In r (rows w) -> id r <> i) ->
  fst (get_recipe i w) = Ok (message "No Recipe found") /\
  rows (snd (get_recipe i w)) = rows w.
Proof.
  intros H. apply find_absent in H. unfold_m.
  split_m; simpl in *; try (split; reflexivity); congruence.
Qed.

Lemma delete_recipe_absent i w :
  (forall r, In r (rows w) -> id r <> i) ->
  fst (delete_recipe i w) = Ok (message "No Recipe found") /\
  rows (snd (delete_recipe i w)) = rows w.
Proof.
  intros H. apply find_absent in H. unfold_m.
  split_m; simpl in *; try (split; reflexivity); congruence.
Qed.

(** The checks [update_recipe] makes on a request before it connects:
    [get_json()] succeeds and gives a dict holding the five fields, each
    truthy. *)
Definition patch_checks_pass (ct : string) (b : option jval) : bool :=
  (is_json ct &&
   match b with
   | Some (JObj kv) => json_ok (JObj kv) && fields_ok kv required_fields
   | _ => false
   end)%bool.

Lemma update_recipe_absent ct b i w :
  (forall r, In r (rows w) -> id r <> i) ->
  fst (update_recipe ct b i w) =
    Ok (if (patch_checks_pass ct b && db_reachable w && db_query_ok w)%bool
        then message "No Recipe found" else update_failed) /\
  rows (snd (update_recipe ct b i w)) = rows w.
Proof.
  intros H. apply find_absent in H. unfold patch_checks_pass.
  destruct (is_json ct) eqn:Ej; cbn [andb].
  2: { unfold_m. rewrite Ej. split; reflexivity. }
  destruct b as [j|]; [|unfold_m; rewrite Ej; split; reflexivity].
  destruct j as [| | | | |kv];
    try (unfold_m; rewrite Ej; destruct (json_ok _); split; reflexivity).
  destruct (json_ok (JObj kv)) eqn:Eo; cbn [andb];
    [|unfold_m; rewrite Ej, Eo; split; reflexivity].
  destruct (fields_ok kv required_fields) eqn:Ef; cbn [andb];
    [|unfold_m; rewrite Ej, Eo, Ef; split; reflexivity].
  unfold_m. rewrite Ej, Eo, Ef. clear Ej Eo Ef.
  split_m; cbn in *; try congruence; split; reflexivity.
Qed.

(** C3 (amended). When no stored record has id [i], GET and DELETE on
    /recipes/{i} answer status 200 with the message "No Recipe found".
    PATCH answers status 200 with "No Recipe found" when its body passes
    the checks (a JSON document that is an object holding the five
    fields, each non-empty, sent as JSON) and the database accepts the
    connection and the query, and with "Recipe update failed!"
    otherwise. None of them changes the stored recipes; no path answers
    404. *)
Theorem absent_id_answers_no_recipe_found ct b i w :
  (forall r, In r (rows w) -> id r <> i) ->
  fst (get_recipe i w) = Ok (message "No Recipe found") /\
  rows (snd (get_recipe i w)) = rows w /\
  fst (delete_recipe i w) = Ok (message "No Recipe found") /\
  rows (snd (delete_recipe i w)) = rows w /\
  fst (update_recipe ct b i w) =
    Ok (if (patch_checks_pass ct b && db_reachable w && db_query_ok w)%bool
        then message "No Recipe found" else update_failed) /\
  rows (snd (update_recipe ct b i w)) = rows w /\
  status (message "No Recipe found") = 200 /\ status update_failed = 200.
Proof.
  intros H.
  destruct (get_recipe_absent i w H) as [G1 G2].
  destruct (delete_recipe_absent i w H) as [D1 D2].
  destruct (update_recipe_absent ct b i w H) as [U1 U2].
  repeat split; assumption.
Qed.

Lemma absent_id_answers_no_recipe_found_witness :
  (forall r, In r (rows w_tea) -> id r <> 7) /\
  fst (get_recipe 7 w_tea) = Ok (message "No Recipe found").
Proof.
  assert (H : forall r, In r (rows w_tea) -> id r <> 7)
    by (intros r [<-|[]]; simpl; discriminate).
  split; [exact H|].
  exact (proj1 (absent_id_answers_no_recipe_found "application/json" (Some tea_body) 7 w_tea H)).
Defined.

(** C3 fails as stated: the answer for an unknown id has status 200. *)
Lemma get_unknown_id_not_404 :
  fst (get_recipe 1 w_empty) = Ok (message "No Recipe found") /\
  status (message "No Recipe found") <> 404.
Proof. split; [reflexivity|discriminate]. Qed.

(** ** C2: PATCH /recipes/{id} *)

Lemma update_rejects_invalid ct kv i w :
  field_missing_or_empty kv ->
  update_recipe ct (Some (JObj kv)) i w = (Ok update_failed, w).
Proof.
  intros H. apply fields_ok_false in H. unfold_m.
  destruct (is_json ct); [|reflexivity]. cbn beta iota.
  destruct (json_ok (JObj kv)); [|reflexivity]. cbn beta iota. rewrite H. reflexivity.
Qed.

(** How a successful PATCH relates a stored row [r] to its new
    version [r']. *)
Definition patched (kv : list (string * jval)) (i : Z) (r r' : recipe) : Prop :=
  id r' = id r /\ created_at r' = created_at r /\
  (id r <> i -> r' = r) /\
  (id r = i ->
     (exists v, dict_get "title" kv = Some v /\ text_of v = Some (title r')) /\
     (exists v, dict_get "making_time" kv = Some v /\ text_of v = Some (making_time r')) /\
     (exists v, dict_get "serves" kv = Some v /\ text_of v = Some (serves r')) /\
     (exists v, dict_get "ingredients" kv = Some v /\ text_of v = Some (ingredients r')) /\
     (exists v, dict_get "cost" kv = Some v /\ py_int v = Ok (cost r'))).

Lemma Forall2_map_self {A} (P : A -> A -> Prop) (f : A -> A) (l : list A) :
  (forall x, In x l -> P x (f x)) -> Forall2 P l (map f l).
Proof.
  induction l as [|x l IH]; simpl; intros H; constructor; auto.
Qed.

Definition updated_prefix : field := FMessage "Recipe successfully updated!".

Lemma update_success_state ct kv i w fs w' :
  update_recipe ct (Some (JObj kv)) i w = (Ok (json_resp (updated_prefix :: fs) 200), w') ->
  fields_ok kv required_fields = true /\ Forall2 (patched kv i) (rows w) (rows w').
Proof.
  intros H. unfold_m. split_m_in H; try discriminate;
    inversion H; subst; simpl in *;
    try (unfold update_failed, updated_prefix, message, json_resp in *; congruence).
  split; [match goal with E : negb _ = false |- _ => now apply negb_false_iff in E end|].
  apply Forall2_map_self. intros x _. unfold patch_row.
  destruct (id x =? i) eqn:E.
  - apply Z.eqb_eq in E.
    repeat split; simpl; try reflexivity; try (intros; contradiction); eauto.
  - apply Z.eqb_neq in E. repeat split; try reflexivity; intros; try contradiction.
Qed.

(** C2 (amended). PATCH /recipes/{id} demands all five fields: a JSON
    object body with any of title, making_time, serves, ingredients or
    cost missing or empty (such as [{"cost": 150}]) is answered with
    "Recipe update failed!" and changes nothing. When the update
    succeeds, all five fields were supplied and non-empty, the row with
    that id has each of them overwritten with the supplied value (cost
    through [int()]), its id and created_at are kept, and every other
    row is left as it was. *)
Theorem update_requires_all_fields :
  (forall ct kv i w,
     field_missing_or_empty kv ->
     update_recipe ct (Some (JObj kv)) i w = (Ok update_failed, w)) /\
  (forall ct kv i w fs w',
     update_recipe ct (Some (JObj kv)) i w = (Ok (json_resp (updated_prefix :: fs) 200), w') ->
     fields_ok kv required_fields = true /\ Forall2 (patched kv i) (rows w) (rows w')).
Proof.
  split; [exact update_rejects_invalid|exact update_success_state].
Qed.

Definition cost_only_kv : list (string * jval) := [("cost", JInt 150)].

Lemma update_requires_all_fields_witness :
  field_missing_or_empty cost_only_kv /\
  update_recipe "application/json" (Some (JObj cost_only_kv)) 1 w_tea = (Ok update_failed, w_tea).
Proof.
  assert (H : field_missing_or_empty cost_only_kv)
    by (exists "title"; split; [simpl; auto|left; reflexivity]).
  split; [exact H|].
  exact (proj1 update_requires_all_fields "application/json" cost_only_kv 1 w_tea H).
Defined.

(** C2 fails as stated: PATCH [{"cost": 150}] on the stored record 1
    fails and its cost stays 100. *)
Lemma patch_cost_only_fails :
  update_recipe "application/json" (Some (JObj cost_only_kv)) 1 w_tea = (Ok update_failed, w_tea) /\
  (forall fs, update_failed <> json_resp (updated_prefix :: fs) 200) /\
  map cost (rows w_tea) = [100].
Proof. split; [reflexivity|split; [discriminate|reflexivity]]. Qed.

(** ** C7: connections on the error paths *)

(** [create_recipe] closes its connection in a [finally]: whatever
    the request, it returns with as many open connections as before. *)
Lemma create_recipe_releases ct b w :
  open_conns (snd (create_recipe ct b w)) = open_conns w.
Proof.
  unfold_m. split_m; reflexivity.
Qed.

Definition w_no_query : world :=
  {| rows := [tea_row]; next_id := 2; clock := 100; open_conns := 0;
     db_reachable := true; db_query_ok := false |}.

(** C7 (code bug). [update_recipe] opens a connection, then [int()] of
    a non-numeric cost raises [ValueError] before the [UPDATE]; its
    [except] answers without [conn.close()], and one connection stays
    open. [get_recipes] (like [get_recipe] and [delete_recipe]) leaves
    its connection open the same way when a query raises. *)
Theorem update_bad_cost_leaves_connection_open :
  update_recipe "application/json" (Some (JObj abc_kv)) 1 w_tea =
    (Ok update_failed,
     {| rows := [tea_row]; next_id := 2; clock := 100; open_conns := 1;
        db_reachable := true; db_query_ok := true |}) /\
  get_recipes w_no_query =
    (Ok (message "No recipes found"),
     {| rows := [tea_row]; next_id := 2; clock := 100; open_conns := 1;
        db_reachable := true; db_query_ok := false |}) /\
  open_conns w_tea = 0%nat /\ open_conns w_no_query = 0%nat.
Proof. repeat split. Qed.

(** ** C8: no health route *)

Definition health_request (ct : string) (b : option jval) : request :=
  {| method := GET; path := ["health"]; content_type := ct; req_body := b |}.

(** C8 (amended). The service registers no [/health] route: Flask
    answers GET /health with 404 Not Found and touches nothing,
    whatever the state of the database. *)
Theorem health_route_absent ct b w :
  dispatch (health_request ct b) w = (Ok not_found, w).
Proof. reflexivity. Qed.

(** C8 fails as stated: with the database up, GET /health is not 200. *)
Lemma health_not_200_with_db_up :
  db_reachable w_empty = true /\
  dispatch (health_request "" None) w_empty = (Ok not_found, w_empty) /\
  status not_found <> 200.
Proof. split; [reflexivity|split; [reflexivity|discriminate]]. Qed.

(** ** C9: the base path *)

Definition index_request (ct : string) (b : option jval) : request :=
  {| method := GET; path := []; content_type := ct; req_body := b |}.

(** C9 (amended). GET / answers status 404 with an empty body. *)
Theorem index_is_404_empty ct b w :
  dispatch (index_request ct b) w = (Ok {| status := 404; resp_body := BText "" |}, w).
Proof. reflexivity. Qed.

(** C9 fails as stated: GET / is not answered with 200. *)
Lemma index_not_200 :
  fst (dispatch (index_request "" None) w_empty) =
    Ok {| status := 404; resp_body := BText "" |} /\
  status {| status := 404; resp_body := BText "" |} <> 200.
Proof. split; [reflexivity|discriminate]. Qed.

(** ** C10: every /recipes handler answers 200 *)

(** An answer with status 200 whose JSON body starts with a message. *)
Definition message_200 (r : response) : Prop :=
  exists m fs, r = json_resp (FMessage m :: fs) 200.

(** C10 (amended). Every outcome of the five /recipes handlers has
    status 200. The JSON body carries a [message] naming the outcome,
    except for a GET /recipes that finds at least one record: its body
    is [{"recipes": [...]}] with no message. *)
Theorem recipe_routes_always_200 :
  (forall ct b w, exists r, fst (create_recipe ct b w) = Ok r /\ message_200 r) /\
  (forall w, (exists m, fst (get_recipes w) = Ok (message m)) \/
             (exists rs, rs <> [] /\ fst (get_recipes w) = Ok (json_resp [FRecipes rs] 200))) /\
  (forall i w, exists r, fst (get_recipe i w) = Ok r /\ message_200 r) /\
  (forall ct b i w, exists r, fst (update_recipe ct b i w) = Ok r /\ message_200 r) /\
  (forall i w, exists r, fst (delete_recipe i w) = Ok r /\ message_200 r).
Proof.
  unfold message_200, create_failed, update_failed, message.
  repeat split; intros; unfold_m; split_m;
    try (eexists; split; [reflexivity|do 2 eexists; reflexivity]).
  all: first [left; eexists; reflexivity | right; eexists; split; [|reflexivity]; discriminate].
Qed.

(** C10 fails as stated: a successful GET /recipes carries no message. *)
Lemma get_recipes_success_no_message :
  fst (get_recipes w_tea) = Ok (json_resp [FRecipes [tea_row]] 200) /\
  ~ exists m, In (FMessage m) [FRecipes [tea_row]].
Proof.
  split; [reflexivity|]. intros [m [H|H]]; [discriminate|contradiction].
Qed.

(** * Further properties of the handlers *)

(** ** The table's ids: distinct, below the AUTO_INCREMENT counter *)

Definition wf_rows (rs : list recipe) (n : Z) : Prop :=
  NoDup (map id rs) /\ Forall (fun r => id r < n) rs.

Definition wf (w : world) : Prop := wf_rows (rows w) (next_id w).

Lemma wf_rows_snoc rs n r :
  wf_rows rs n -> id r = n -> wf_rows (rs ++ [r]) (n + 1).
Proof.
  intros [Hd Hf] Hr. split.
  - rewrite map_app. apply NoDup_app; [exact Hd| |].
    + simpl. constructor; [intros []|constructor].
    + intros x Hx Hin. simpl in Hin. destruct Hin as [Hx'|[]].
      rewrite Forall_forall in Hf.
      apply in_map_iff in Hx as [y [Hy Hy']]. specialize (Hf y Hy'). lia.
  - apply Forall_app. split.
    + eapply Forall_impl; [|exact Hf]. simpl; intros; lia.
    + constructor; [lia|constructor].
Qed.

Lemma map_id_patch i t mt sv ing c now rs :
  map id (map (patch_row i t mt sv ing c now) rs) = map id rs.
Proof.
  induction rs as [|r rs IH]; simpl; [reflexivity|].
  rewrite IH. unfold patch_row. destruct (id r =? i); reflexivity.
Qed.

Lemma wf_rows_patch i t mt sv ing c now rs n :
  wf_rows rs n -> wf_rows (map (patch_row i t mt sv ing c now) rs) n.
Proof.
  intros [Hd Hf]. split.
  - now rewrite map_id_patch.
  - apply Forall_map. eapply Forall_impl; [|exact Hf].
    intros r. unfold patch_row. destruct (id r =? i); auto.
Qed.

Lemma map_id_filter i rs :
  map id (filter (fun r => negb (id r =? i)) rs) =
  filter (fun z => negb (z =? i)) (map id rs).
Proof.
  induction rs as [|r rs IH]; simpl; [reflexivity|].
  destruct (negb (id r =? i)); simpl; now rewrite IH.
Qed.

Lemma wf_rows_filter i rs n :
  wf_rows rs n -> wf_rows (filter (fun r => negb (id r =? i)) rs) n.
Proof.
  intros [Hd Hf]. split.
  - rewrite map_id_filter. now apply NoDup_filter.
  - rewrite Forall_forall in *. intros r Hr. apply filter_In in Hr. now apply Hf.
Qed.

Lemma find_absent_below rs n :
  Forall (fun r => id r < n) rs -> find (fun x => id x =? n) rs = None.
Proof.
  intros Hf. apply find_absent. rewrite Forall_forall in Hf.
  intros r Hr. specialize (Hf r Hr). lia.
Qed.

Lemma find_snoc_new rs r n :
  Forall (fun x => id x < n) rs -> id r = n ->
  find (fun x => id x =? n) (rs ++ [r])%list = Some r.
Proof.
  intros Hf <-. induction rs as [|x rs IH]; simpl.
  - now rewrite Z.eqb_refl.
  - inversion Hf as [|? ? Hx Hrs]; subst.
    destruct (id x =? id r) eqn:E; [apply Z.eqb_eq in E; lia|auto].
Qed.

Ltac solve_wf :=
  unfold wf in *; simpl in *;
  first [ assumption
        | apply wf_rows_snoc; [assumption|reflexivity]
        | apply wf_rows_patch; assumption
        | apply wf_rows_filter; assumption
        | match goal with E : rows _ = _ |- _ => rewrite <- E; assumption end ].

(** X: every /recipes handler keeps the ids of the table distinct and
    below the AUTO_INCREMENT counter, whatever the request. *)
Theorem handlers_keep_ids_wf ct b i w :
  wf w ->
  wf (snd (create_recipe ct b w)) /\ wf (snd (get_recipes w)) /\
  wf (snd (get_recipe i w)) /\ wf (snd (update_recipe ct b i w)) /\
  wf (snd (delete_recipe i w)).
Proof.
  intros Hw. refine (conj _ (conj _ (conj _ (conj _ _)))); unfold_m; split_m; solve_wf.
Qed.

Lemma handlers_keep_ids_wf_witness :
  wf w_tea /\ wf (snd (create_recipe "application/json" (Some tea_body) w_tea)).
Proof.
  assert (H : wf w_tea).
  { split; [constructor; [intros []|constructor]|constructor; [simpl; lia|constructor]]. }
  split; [exact H|].
  exact (proj1 (handlers_keep_ids_wf "application/json" (Some tea_body) 0 w_tea H)).
Defined.

(** ** Creating a record *)

(** The value the code sends for [field] of a body: present, and
    turned into the text stored in its column. *)
Definition sent_text (kv : list (string * jval)) (f s : string) : Prop :=
  exists v, dict_get f kv = Some v /\ text_of v = Some s.

(** X: on a well-formed table, a successful POST /recipes appends
    exactly the row it returns, with the next AUTO_INCREMENT id, the
    four text fields as sent and [cost] as [int()] of the sent value,
    which is positive; the earlier rows are kept as they were. *)
Theorem create_success_appends ct b w r w' :
  wf w ->
  create_recipe ct b w = (Ok (created r), w') ->
  rows w' = (rows w ++ [r])%list /\ id r = next_id w /\ next_id w' = next_id w + 1 /\
  0 < cost r /\
  exists kv, b = Some (JObj kv) /\ fields_ok kv required_fields = true /\
    sent_text kv "title" (title r) /\ sent_text kv "making_time" (making_time r) /\
    sent_text kv "serves" (serves r) /\ sent_text kv "ingredients" (ingredients r) /\
    exists v, dict_get "cost" kv = Some v /\ py_int v = Ok (cost r).
Proof.
  intros [Hd Hf] H. unfold_m. split_m_in H; try discriminate;
    inversion H; subst; simpl in *;
    try (unfold create_failed, created, message, json_resp in *; congruence).
  match goal with E : find _ _ = Some _ |- _ =>
    rewrite find_snoc_new in E by (exact Hf || reflexivity); inversion E; subst end.
  simpl. repeat split; try reflexivity.
  - match goal with E : (_ <=? 0) = false |- _ => apply Z.leb_gt in E; exact E end.
  - eexists; split; [reflexivity|].
    split; [match goal with E : negb _ = false |- _ => now apply negb_false_iff in E end|].
    unfold sent_text. repeat split; eauto.
Qed.



(** ** Updating a record *)



Definition zero_cost_kv : list (string * jval) :=
  [("title", JStr "Tea"); ("making_time", JStr "5 min"); ("serves", JStr "1");
   ("ingredients", JStr "Water"); ("cost", JStr "0")].


Lemma update_success_find ct b i w r w' :
  update_recipe ct b i w = (Ok (json_resp [updated_prefix; FRecipe [Some r]] 200), w') ->
  find (fun x => id x =? i) (rows w') = Some r /\
  db_reachable w' = true /\ db_query_ok w' = true.
Proof.
  intros H. unfold_m. split_m_in H; try discriminate;
    inversion H; subst; simpl in *;
    try (unfold update_failed, updated_prefix, message, json_resp in *; congruence).
  repeat split; assumption.
Qed.

(** X: right after a PATCH /recipes/{i} that answered with the updated
    record [r], a GET /recipes/{i} returns that same record and changes
    nothing. *)
Theorem update_then_get_same_record ct b i w r w' :
  update_recipe ct b i w = (Ok (json_resp [updated_prefix; FRecipe [Some r]] 200), w') ->
  get_recipe i w' =
    (Ok (json_resp [FMessage "Recipe details by id"; FRecipe [Some r]] 200), w').
Proof.
  intros H. apply update_success_find in H as [F [R Q]].
  destruct w' as [rs nid clk oc reach qok]; simpl in *; subst reach qok.
  unfold get_recipe, try_except, bind, get_db_connection, select_by_id, query,
    cursor_close, conn_close, ret; simpl. rewrite F. reflexivity.
Qed.

Lemma update_then_get_same_record_witness :
  update_recipe "application/json" (Some (JObj zero_cost_kv)) 1 w_tea =
    (Ok (json_resp [updated_prefix;
                    FRecipe [Some (patch_row 1 "Tea" "5 min" "1" "Water" 0 100 tea_row)]] 200),
     set_rows w_tea (map (patch_row 1 "Tea" "5 min" "1" "Water" 0 100) (rows w_tea)) 2) /\
  get_recipe 1 (set_rows w_tea (map (patch_row 1 "Tea" "5 min" "1" "Water" 0 100) (rows w_tea)) 2) =
    (Ok (json_resp [FMessage "Recipe details by id";
                    FRecipe [Some (patch_row 1 "Tea" "5 min" "1" "Water" 0 100 tea_row)]] 200),
     set_rows w_tea (map (patch_row 1 "Tea" "5 min" "1" "Water" 0 100) (rows w_tea)) 2).
Proof.
  assert (H : update_recipe "application/json" (Some (JObj zero_cost_kv)) 1 w_tea =
    (Ok (json_resp [updated_prefix;
                    FRecipe [Some (patch_row 1 "Tea" "5 min" "1" "Water" 0 100 tea_row)]] 200),
     set_rows w_tea (map (patch_row 1 "Tea" "5 min" "1" "Water" 0 100) (rows w_tea)) 2))
    by reflexivity.
  split; [exact H|]. exact (update_then_get_same_record _ _ _ _ _ _ H).
Defined.

(** X: whatever the request, PATCH keeps the list of ids of the table
    (no row is added, removed or renumbered) and the AUTO_INCREMENT
    counter. *)
Theorem update_keeps_ids ct b i w :
  map id (rows (snd (update_recipe ct b i w))) = map id (rows w) /\
  next_id (snd (update_recipe ct b i w)) = next_id w.
Proof.
  unfold_m. split_m; simpl in *; subst; try (split; reflexivity).
  all: split; [apply map_id_patch|reflexivity].
Qed.

(** ** Reading *)

(** X: GET /recipes and GET /recipes/{i} never change the stored rows
    or the counter; with the database up they leave the whole state as
    it was. *)
Theorem gets_read_only i w :
  rows (snd (get_recipes w)) = rows w /\ next_id (snd (get_recipes w)) = next_id w /\
  rows (snd (get_recipe i w)) = rows w /\ next_id (snd (get_recipe i w)) = next_id w /\
  (db_reachable w = true -> db_query_ok w = true ->
   snd (get_recipes w) = w /\ snd (get_recipe i w) = w).
Proof.
  refine (conj _ (conj _ (conj _ (conj _ _)))); unfold_m; split_m; simpl in *; subst;
    try reflexivity.
  all: intros; destruct w; simpl in *; subst; split; reflexivity || congruence.
Qed.

Lemma gets_read_only_witness :
  (db_reachable w_tea = true /\ db_query_ok w_tea = true) /\
  snd (get_recipes w_tea) = w_tea /\ snd (get_recipe 1 w_tea) = w_tea.
Proof.
  split; [split; reflexivity|].
  exact (proj2 (proj2 (proj2 (proj2 (gets_read_only 1 w_tea)))) eq_refl eq_refl).
Defined.

(** X: with the database up, GET /recipes on a non-empty table returns
    every stored row, in the table's order. *)
Theorem get_recipes_lists_all w :
  db_reachable w = true -> db_query_ok w = true -> rows w <> [] ->
  get_recipes w = (Ok (json_resp [FRecipes (rows w)] 200), w).
Proof.
  intros Hup Hq Hne. destruct w as [rs nid clk oc reach qok]; simpl in *; subst.
  unfold_m. simpl. destruct rs; [contradiction|reflexivity].
Qed.

Lemma get_recipes_lists_all_witness :
  rows w_tea <> [] /\ get_recipes w_tea = (Ok (json_resp [FRecipes [tea_row]] 200), w_tea).
Proof.
  assert (H : rows w_tea <> []) by discriminate.
  split; [exact H|]. exact (get_recipes_lists_all w_tea eq_refl eq_refl H).
Defined.

(** ** Deleting *)

Lemma find_filter_removed i rs :
  find (fun r => id r =? i) (filter (fun r => negb (id r =? i)) rs) = None.
Proof.
  induction rs as [|r rs IH]; simpl; [reflexivity|].
  destruct (id r =? i) eqn:E; simpl; [exact IH|]. rewrite E. exact IH.
Qed.

(** X: with the database up, a DELETE /recipes/{i} on a stored id
    removes every row with that id, keeps the others in order, and
    answers "Recipe successfully removed!"; afterwards GET and DELETE
    on the same id answer "No Recipe found" and change nothing. *)
Theorem delete_existing_removes i w old :
  db_reachable w = true -> db_query_ok w = true ->
  find (fun r => id r =? i) (rows w) = Some old ->
  let w' := set_rows w (filter (fun r => negb (id r =? i)) (rows w)) (next_id w) in
  delete_recipe i w = (Ok (message "Recipe successfully removed!"), w') /\
  get_recipe i w' = (Ok (message "No Recipe found"), w') /\
  delete_recipe i w' = (Ok (message "No Recipe found"), w').
Proof.
  intros Hup Hq Hold w'.
  destruct w as [rs nid clk oc reach qok]; simpl in *; subst reach qok.
  unfold w'. unfold_m. simpl. rewrite Hold. simpl.
  rewrite find_filter_removed. repeat split; reflexivity.
Qed.

Lemma delete_existing_removes_witness :
  find (fun r => id r =? 1) (rows w_tea) = Some tea_row /\
  delete_recipe 1 w_tea = (Ok (message "Recipe successfully removed!"), set_rows w_tea [] 2).
Proof.
  split; [reflexivity|].
  exact (proj1 (delete_existing_removes 1 w_tea tea_row eq_refl eq_refl eq_refl)).
Defined.

(** ** Decimal text and [int()] *)

Definition digit_step (a : Z) (c : ascii) : Z := a * 10 + digit_val c.

Lemma digit_char_spec d :
  0 <= d < 10 ->
  is_digit (ascii_of_nat (48 + Z.to_nat d)) = true /\
  digit_val (ascii_of_nat (48 + Z.to_nat d)) = d.
Proof.
  intros Hd. unfold is_digit, digit_val.
  rewrite Ascii.nat_ascii_embedding by lia. split.
  - apply andb_true_intro; split; apply Nat.leb_le; lia.
  - rewrite Nat2Z.inj_add, Z2Nat.id by lia. lia.
Qed.

Lemma dec_digits_spec f : forall n acc,
  0 <= n < 10 ^ Z.of_nat f -> (0 < f)%nat ->
  exists ds, list_ascii_of_string (dec_digits f n acc) = (ds ++ list_ascii_of_string acc)%list /\
    ds <> [] /\ forallb is_digit ds = true /\ fold_left digit_step ds 0 = n.
Proof.
  induction f as [|f IH]; intros n acc Hn Hf; [lia|].
  assert (Hm : 0 <= n mod 10 < 10) by (apply Z.mod_pos_bound; lia).
  destruct (digit_char_spec _ Hm) as [Hdig Hval].
  cbn [dec_digits].
  remember (ascii_of_nat (48 + Z.to_nat (n mod 10))) as ch eqn:Hch.
  destruct (n <? 10) eqn:E.
  - apply Z.ltb_lt in E. exists [ch].
    cbn [list_ascii_of_string app forallb fold_left]. rewrite Hdig.
    repeat split; [discriminate|].
    unfold digit_step. rewrite Hval, Z.mod_small by lia. lia.
  - apply Z.ltb_ge in E.
    destruct f as [|f']; [cbn in Hn; lia|].
    assert (Hq : 0 <= n / 10 < 10 ^ Z.of_nat (S f')).
    { split; [apply Z.div_pos; lia|].
      apply Z.div_lt_upper_bound; [lia|].
      rewrite <- Z.pow_succ_r by lia. rewrite <- Nat2Z.inj_succ. lia. }
    destruct (IH (n / 10) (String ch acc) Hq ltac:(lia)) as [ds [H1 [H2 [H3 H4]]]].
    exists (ds ++ [ch])%list.
    rewrite H1. cbn [list_ascii_of_string]. rewrite <- app_assoc. cbn [app].
    repeat split.
    + destruct ds; [contradiction|discriminate].
    + rewrite forallb_app, H3. cbn [forallb]. now rewrite Hdig.
    + rewrite fold_left_app, H4. cbn [fold_left]. unfold digit_step. rewrite Hval.
      rewrite (Z.div_mod n 10) at 3 by lia. lia.
Qed.

Lemma pos_below_size p : Z.pos p < 2 ^ Z.of_nat (Pos.size_nat p).
Proof.
  induction p as [p IH|p IH|]; cbn [Pos.size_nat].
  - rewrite Nat2Z.inj_succ, Z.pow_succ_r by lia. rewrite Pos2Z.inj_xI. lia.
  - rewrite Nat2Z.inj_succ, Z.pow_succ_r by lia. rewrite Pos2Z.inj_xO. lia.
  - reflexivity.
Qed.

Lemma below_dec_fuel n :
  0 <= n -> 0 <= n < 10 ^ Z.of_nat (Pos.size_nat (Z.to_pos n)).
Proof.
  intros Hn. split; [exact Hn|].
  destruct n as [|p|p]; [|simpl Z.to_pos|lia].
  - simpl. lia.
  - eapply Z.lt_le_trans; [apply pos_below_size|].
    apply Z.pow_le_mono_l. lia.
Qed.

Lemma size_nat_pos p : (0 < Pos.size_nat p)%nat.
Proof. destruct p; simpl; lia. Qed.

Lemma parse_digits_app ds rest acc :
  forallb is_digit ds = true ->
  parse_digits (ds ++ rest)%list acc = parse_digits rest (fold_left digit_step ds acc).
Proof.
  revert acc. induction ds as [|c ds IH]; intros acc H; simpl; [reflexivity|].
  apply andb_prop in H as [Hc Hds]. rewrite Hc. apply IH, Hds.
Qed.

Lemma digit_not_space c : is_digit c = true -> is_space c = false.
Proof.
  unfold is_digit, is_space. intros H. apply andb_prop in H as [H1 H2].
  apply Nat.leb_le in H1, H2.
  apply orb_false_intro; [apply Nat.eqb_neq; lia|].
  apply andb_false_intro2, Nat.leb_gt. lia.
Qed.

Lemma strip_id x m y m' :
  is_space x = false -> is_space y = false -> rev (x :: m) = y :: m' ->
  strip (x :: m) = x :: m.
Proof.
  intros Hx Hy Hr. unfold strip. simpl drop_spaces at 2. rewrite Hx.
  rewrite Hr. simpl. rewrite Hy, <- Hr. apply rev_involutive.
Qed.

Lemma digits_last ds :
  ds <> [] -> forallb is_digit ds = true -> exists y m', rev ds = y :: m' /\ is_digit y = true.
Proof.
  intros Hne Hd. destruct (rev ds) as [|y m'] eqn:E.
  - apply (f_equal (@rev _)) in E. rewrite rev_involutive in E. contradiction.
  - exists y, m'. split; [reflexivity|].
    rewrite forallb_forall in Hd. apply Hd, in_rev. rewrite E. now left.
Qed.

Lemma dec_string_nonneg n :
  0 <= n ->
  exists ds, list_ascii_of_string (dec_string n) = ds /\ ds <> [] /\
    forallb is_digit ds = true /\ fold_left digit_step ds 0 = n.
Proof.
  intros Hn. unfold dec_string.
  replace (n <? 0) with false by (symmetry; apply Z.ltb_ge; lia).
  destruct (dec_digits_spec _ n "" (below_dec_fuel n Hn) (size_nat_pos _))
    as [ds [H1 H2]].
  exists ds. rewrite H1. cbn [list_ascii_of_string]. rewrite app_nil_r. now split.
Qed.

Lemma sign_match_digit x m :
  is_digit x = true ->
  match x :: m with
  | "-"%char :: t => option_map Z.opp (parse_unsigned t)
  | "+"%char :: t => parse_unsigned t
  | _ => parse_unsigned (x :: m)
  end = parse_unsigned (x :: m).
Proof.
  destruct x as [[] [] [] [] [] [] [] []]; intros H; try discriminate; reflexivity.
Qed.

Lemma parse_unsigned_digits ds :
  ds <> [] -> forallb is_digit ds = true ->
  parse_unsigned ds = Some (fold_left digit_step ds 0).
Proof.
  intros Hne Hd. destruct ds as [|x m]; [contradiction|].
  unfold parse_unsigned. pose proof Hd as Hd'. cbn [forallb] in Hd'.
  apply andb_prop in Hd' as [Hx _]. rewrite Hx.
  pose proof (parse_digits_app (x :: m) [] 0 Hd) as E. rewrite app_nil_r in E.
  rewrite E. reflexivity.
Qed.

Lemma ascii_decode l :
  forallb (fun c => Nat.ltb (nat_of_ascii c) 127) l = true ->
  utf8_decode true l = Some (map code l) /\ map int_char (map code l) = l.
Proof.
  induction l as [|c l IH]; intros H; [split; reflexivity|].
  cbn [forallb] in H. apply andb_prop in H as [Hc Hl]. apply Nat.ltb_lt in Hc.
  destruct (IH Hl) as [D E]. split.
  - cbn [utf8_decode].
    replace (code c <? 128) with true by (symmetry; apply Z.ltb_lt; unfold code; lia).
    rewrite D. reflexivity.
  - cbn [map]. rewrite E. f_equal. unfold int_char.
    replace (code c <? 127) with true by (symmetry; apply Z.ltb_lt; unfold code; lia).
    unfold code. rewrite Nat2Z.id. apply ascii_nat_embedding.
Qed.

Lemma digits_ascii ds :
  forallb is_digit ds = true -> forallb (fun c => Nat.ltb (nat_of_ascii c) 127) ds = true.
Proof.
  induction ds as [|c ds IH]; intros H; [reflexivity|].
  cbn [forallb] in *. apply andb_prop in H as [Hc Hds].
  unfold is_digit in Hc. apply andb_prop in Hc as [_ Hc]. apply Nat.leb_le in Hc.
  rewrite IH by exact Hds. rewrite andb_true_r. apply Nat.ltb_lt. lia.
Qed.

Lemma length_list_ascii s : String.length s = List.length (list_ascii_of_string s).
Proof. induction s as [|c s IH]; simpl; congruence. Qed.

Lemma filter_digits ds : forallb is_digit ds = true -> filter is_digit ds = ds.
Proof.
  induction ds as [|c ds IH]; intros H; [reflexivity|].
  cbn [forallb filter] in *. apply andb_prop in H as [Hc Hds]. rewrite Hc, IH by exact Hds.
  reflexivity.
Qed.

(** The decimal text of a non-negative [n]: digits only, as many as
    [digits_ok] counts. *)
Lemma dec_string_digits n :
  0 <= n ->
  exists ds, list_ascii_of_string (dec_string n) = ds /\ ds <> [] /\
    forallb is_digit ds = true /\ fold_left digit_step ds 0 = n /\
    String.length (dec_string (Z.abs n)) = List.length ds.
Proof.
  intros Hn. destruct (dec_string_nonneg n Hn) as [ds [H1 H2]].
  exists ds. rewrite Z.abs_eq by exact Hn. rewrite length_list_ascii, H1. tauto.
Qed.

Lemma py_int_of_string_dec z :
  digits_ok z = true -> py_int_of_string (dec_string z) = Ok z.
Proof.
  intros Hz. unfold digits_ok in Hz. apply Nat.leb_le in Hz.
  unfold py_int_of_string.
  destruct (Z.ltb_spec z 0) as [Hneg|Hnn].
  - destruct (dec_string_digits (- z) ltac:(lia)) as [ds [H1 [Hne [Hd [Hv Hlen]]]]].
    replace (Z.abs (- z)) with (Z.abs z) in Hlen by lia. rewrite Hlen in Hz.
    assert (Hl : list_ascii_of_string (dec_string z) = "-"%char :: ds).
    { rewrite <- H1. unfold dec_string.
      replace (z <? 0) with true by (symmetry; apply Z.ltb_lt; lia).
      replace (- z <? 0) with false by (symmetry; apply Z.ltb_ge; lia).
      reflexivity. }
    rewrite Hl.
    destruct (ascii_decode ("-"%char :: ds)) as [D E];
      [cbn [forallb]; now rewrite digits_ascii|].
    rewrite D. cbv beta iota zeta. rewrite E.
    destruct (digits_last ds Hne Hd) as [y [m' [Hr Hy]]].
    rewrite (strip_id "-"%char ds y (m' ++ ["-"%char])%list); [| reflexivity
      | now apply digit_not_space | cbn [rev]; now rewrite Hr].
    cbn beta iota. rewrite parse_unsigned_digits by assumption. rewrite Hv.
    cbn [option_map filter].
    change (is_digit "-"%char) with false. cbv iota.
    rewrite filter_digits by exact Hd. apply Nat.leb_le in Hz. rewrite Hz.
    f_equal. lia.
  - destruct (dec_string_digits z Hnn) as [ds [H1 [Hne [Hd [Hv Hlen]]]]].
    rewrite Hlen in Hz. rewrite H1.
    destruct (ascii_decode ds) as [D E]; [now apply digits_ascii|].
    rewrite D. cbv beta iota zeta. rewrite E.
    destruct ds as [|x m] eqn:Eds; [contradiction|].
    pose proof Hd as Hd'. cbn [forallb] in Hd'. apply andb_prop in Hd' as [Hx _].
    destruct (digits_last (x :: m) Hne Hd) as [y [m' [Hr Hy]]].
    rewrite (strip_id x m y m') by (apply digit_not_space; assumption || exact Hy) || exact Hr.
    rewrite (sign_match_digit x m Hx).
    rewrite parse_unsigned_digits by assumption. rewrite Hv.
    rewrite filter_digits by exact Hd. apply Nat.leb_le in Hz. rewrite Hz. reflexivity.
Qed.

(** X: [int()], which the code applies to [cost], reads back [str(z)]
    for every integer [z] that [str()] can write (at most
    [int_max_str_digits] digits; the text MySQL stores for an integer
    parameter, or a client sends): [int(str(z)) = z]. *)
Theorem py_int_dec_string z :
  digits_ok z = true -> py_int (JStr (dec_string z)) = Ok z.
Proof. exact (py_int_of_string_dec z). Qed.

Lemma py_int_dec_string_witness :
  digits_ok (-1234) = true /\ py_int (JStr (dec_string (-1234))) = Ok (-1234).
Proof. split; [reflexivity|exact (py_int_dec_string (-1234) eq_refl)]. Defined.

Lemma create_success_appends_witness :
  wf w_empty /\
  create_recipe "application/json" (Some tea_body) w_empty = (Ok (created tea_row), w_tea) /\
  rows w_tea = (rows w_empty ++ [tea_row])%list /\ id tea_row = next_id w_empty /\
  next_id w_tea = next_id w_empty + 1.
Proof.
  assert (Hw : wf w_empty) by (split; constructor).
  assert (Hc : create_recipe "application/json" (Some tea_body) w_empty
               = (Ok (created tea_row), w_tea)) by reflexivity.
  destruct (create_success_appends _ _ _ _ _ Hw Hc) as [H1 [H2 [H3 _]]].
  exact (conj Hw (conj Hc (conj H1 (conj H2 H3)))).
Defined.

(** ** Routing by id *)

Lemma decimal_digit c : is_digit c = true -> py_decimal (code c) = Some (digit_val c).
Proof.
  destruct c as [[] [] [] [] [] [] [] []]; intros H; try discriminate H; reflexivity.
Qed.

Lemma int_segment_dec_string n :
  0 <= n -> digits_ok n = true -> int_segment (dec_string n) = Some (Ok n).
Proof.
  intros Hn Hz. destruct (dec_string_digits n Hn) as [ds [H1 [Hne [Hd _]]]].
  unfold int_segment. rewrite H1.
  destruct (ascii_decode ds) as [D _]; [now apply digits_ascii|]. rewrite D.
  destruct ds as [|x m] eqn:Eds; [contradiction|]. cbn [map].
  replace (forallb _ _) with true.
  - now rewrite py_int_of_string_dec.
  - symmetry. apply forallb_forall. intros cp Hin. change (code x :: map code m) with (map code (x :: m)) in Hin.
    apply in_map_iff in Hin as [c [<- Hc]].
    rewrite forallb_forall in Hd. rewrite (decimal_digit c (Hd c Hc)). reflexivity.
Qed.

(** X: the [<int:id>] routes read back [str(n)] for every non-negative
    id [n] that [str()] can write: GET, PATCH and DELETE on
    [/recipes/str(n)] run [get_recipe(n)], [update_recipe(n)] and
    [delete_recipe(n)]. *)
Theorem dispatch_id_routes n ct b :
  0 <= n -> digits_ok n = true ->
  dispatch {| method := GET; path := ["recipes"; dec_string n];
              content_type := ct; req_body := b |} = get_recipe n /\
  dispatch {| method := PATCH; path := ["recipes"; dec_string n];
              content_type := ct; req_body := b |} = update_recipe ct b n /\
  dispatch {| method := DELETE; path := ["recipes"; dec_string n];
              content_type := ct; req_body := b |} = delete_recipe n.
Proof.
  intros Hn Hz. unfold dispatch. cbn [path method content_type req_body String.eqb].
  rewrite (int_segment_dec_string n Hn Hz). repeat split.
Qed.

Lemma dispatch_id_routes_witness :
  0 <= 123 /\ digits_ok 123 = true /\
  dispatch {| method := GET; path := ["recipes"; dec_string 123];
              content_type := ""; req_body := None |} = get_recipe 123.
Proof.
  split; [lia|]. split; [reflexivity|].
  exact (proj1 (dispatch_id_routes 123 "" None ltac:(lia) eq_refl)).
Defined.

Lemma py_int_of_string_long ds :
  forallb is_digit ds = true -> (int_max_str_digits < List.length ds)%nat ->
  py_int_of_string (string_of_list_ascii ds) = Raise ValueError.
Proof.
  intros Hd Hl. unfold py_int_of_string. rewrite list_ascii_of_string_of_list_ascii.
  destruct (ascii_decode ds (digits_ascii ds Hd)) as [D E]. rewrite D.
  cbv beta iota zeta. rewrite E.
  assert (Hne : ds <> []) by (intros ->; cbn in Hl; lia).
  destruct ds as [|x m] eqn:Eds; [contradiction|].
  pose proof Hd as Hd'. cbn [forallb] in Hd'. apply andb_prop in Hd' as [Hx _].
  destruct (digits_last (x :: m) Hne Hd) as [y [m' [Hr Hy]]].
  rewrite (strip_id x m y m') by (apply digit_not_space; assumption || exact Hy) || exact Hr.
  rewrite (sign_match_digit x m Hx).
  rewrite parse_unsigned_digits by assumption.
  rewrite filter_digits by exact Hd.
  replace (Nat.leb _ int_max_str_digits) with false by (symmetry; apply Nat.leb_gt; exact Hl).
  reflexivity.
Qed.

(** X: an id segment of more than [int_max_str_digits] digits matches
    [<int:id>], but [int()] refuses it: GET, PATCH and DELETE on it are
    answered by Flask with 500, before any handler runs. *)
Theorem dispatch_long_id_500 ds m ct b w :
  forallb is_digit ds = true -> (int_max_str_digits < List.length ds)%nat ->
  m = GET \/ m = PATCH \/ m = DELETE ->
  dispatch {| method := m; path := ["recipes"; string_of_list_ascii ds];
              content_type := ct; req_body := b |} w = (Ok internal_error, w).
Proof.
  intros Hd Hl Hm.
  assert (Hs : int_segment (string_of_list_ascii ds) = Some (Raise ValueError)).
  { unfold int_segment. rewrite list_ascii_of_string_of_list_ascii.
    destruct (ascii_decode ds (digits_ascii ds Hd)) as [D _]. rewrite D.
    destruct ds as [|x r] eqn:Eds; [cbn in Hl; lia|]. cbn [map].
    replace (forallb _ _) with true.
    - rewrite <- Eds. now rewrite py_int_of_string_long by (subst; assumption).
    - symmetry. apply forallb_forall. intros cp Hin.
      change (code x :: map code r) with (map code (x :: r)) in Hin.
      apply in_map_iff in Hin as [c [<- Hc]].
      rewrite forallb_forall in Hd. rewrite (decimal_digit c (Hd c Hc)). reflexivity. }
  unfold dispatch. cbn [path method content_type req_body String.eqb].
  rewrite Hs. destruct Hm as [->|[->| ->]]; reflexivity.
Qed.

Lemma dispatch_long_id_500_witness :
  forallb is_digit (repeat "1"%char 4301) = true /\
  (int_max_str_digits < List.length (repeat "1"%char 4301))%nat /\
  dispatch {| method := GET; path := ["recipes"; string_of_list_ascii (repeat "1"%char 4301)];
              content_type := ""; req_body := None |} w_tea = (Ok internal_error, w_tea).
Proof.
  assert (Hd : forallb is_digit (repeat "1"%char 4301) = true) by (vm_compute; reflexivity).
  assert (Hl : (int_max_str_digits < List.length (repeat "1"%char 4301))%nat)
    by (rewrite repeat_length; vm_compute; lia).
  exact (conj Hd (conj Hl (dispatch_long_id_500 _ GET "" None w_tea Hd Hl (or_introl eq_refl)))).
Defined.

(** * Database initialisation and connection *)

(** [init_db()] and the [ER_BAD_DB_ERROR] retry of
    [get_db_connection()], over the MySQL server they talk to. *)
Module DbInit.

(** The connector's errors, by errno, and the other exceptions
    [init_db] re-raises. *)
Inductive db_err : Type :=
| ER_BAD_DB_ERROR      (* 1049: unknown database [DB_NAME] *)
| CR_CONN_HOST_ERROR   (* 2003: server not reachable *)
| StatementError       (* cursor.execute raised *)
| FileNotFoundError    (* open('create.sql') or its read() raised *)
| RecursionError.      (* Python's recursion limit *)

(** The server [DB_HOST] and the working directory: whether the server
    is up, whether the database [DB_NAME] exists, the text of
    [create.sql] as [read()] returns it on a file opened with
    [encoding='utf-8'] (the [str] as its UTF-8 bytes; [None] when the
    open or the read raises, as on a missing file or bytes that are not
    UTF-8), which statements the server accepts, the connections opened
    and not closed, the statements run, and the commits. *)
Record server : Type := mkServer {
  srv_up : bool;
  db_exists : bool;
  create_sql : option string;
  stmt_ok : string -> bool;
  srv_open : nat;
  executed : list string;
  commits : nat
}.

Definition with_open (s : server) (n : nat) : server :=
  {| srv_up := srv_up s; db_exists := db_exists s; create_sql := create_sql s;
     stmt_ok := stmt_ok s; srv_open := n; executed := executed s; commits := commits s |}.

Definition with_run (s : server) (stmt : string) : server :=
  {| srv_up := srv_up s; db_exists := db_exists s; create_sql := create_sql s;
     stmt_ok := stmt_ok s; srv_open := srv_open s;
     executed := (executed s ++ [stmt])%list; commits := commits s |}.

Definition with_commit (s : server) : server :=
  {| srv_up := srv_up s; db_exists := db_exists s; create_sql := create_sql s;
     stmt_ok := stmt_ok s; srv_open := srv_open s; executed := executed s;
     commits := S (commits s) |}.

(** [mysql.connector.connect(..., database=DB_NAME)] *)
Definition connect (s : server) : (unit + db_err) * server :=
  if srv_up s then
    if db_exists s then (inl tt, with_open s (S (srv_open s)))
    else (inr ER_BAD_DB_ERROR, s)
  else (inr CR_CONN_HOST_ERROR, s).

(** Python's [str.split(';')]: the pieces between separators, empty
    ones included, always at least one. *)
Fixpoint py_split (sep : ascii) (s : string) : list string :=
  match s with
  | EmptyString => [""]
  | String c r =>
      let parts := py_split sep r in
      if Ascii.eqb c sep then "" :: parts
      else match parts with
           | p :: ps => String c p :: ps
           | [] => [String c ""]
           end
  end.

(** [if command.strip():] fails exactly when every character of the
    piece is white space ([create.sql] is read as UTF-8). *)
Definition blank (c : string) : bool :=
  match utf8_decode false (list_ascii_of_string c) with
  | Some cps => forallb py_isspace cps
  | None => false
  end.

(** The loop [for command in sql_commands.split(';')]: each non-blank
    piece is run as [command + ';']; the first failing one raises. *)
Fixpoint run_commands (cmds : list string) (s : server) : (unit + db_err) * server :=
  match cmds with
  | [] => (inl tt, s)
  | c :: cs =>
      if blank c then run_commands cs s
      else let stmt := (c ++ ";")%string in
           if stmt_ok s stmt then run_commands cs (with_run s stmt)
           else (inr StatementError, s)
  end.

(** [init_db()]: connect, read [create.sql], run its statements,
    commit and close; [except Exception: raise] re-raises whatever
    happened, without closing the connection. *)
Definition init_db (s : server) : (unit + db_err) * server :=
  match connect s with
  | (inr e, s1) => (inr e, s1)
  | (inl _, s1) =>
      match create_sql s1 with
      | None => (inr FileNotFoundError, s1)
      | Some txt =>
          match run_commands (py_split ";"%char txt) s1 with
          | (inr e, s2) => (inr e, s2)
          | (inl _, s2) =>
              let s3 := with_commit s2 in
              (inl tt, with_open s3 (Nat.pred (srv_open s3)))
          end
      end
  end.

(** [get_db_connection()]: on [ER_BAD_DB_ERROR], [init_db()] then a
    recursive call; [fuel] is the depth left before Python's recursion
    limit. *)
Fixpoint get_db_connection (fuel : nat) (s : server) : (unit + db_err) * server :=
  match fuel with
  | O => (inr RecursionError, s)
  | S f =>
      match connect s with
      | (inl tt, s1) => (inl tt, s1)
      | (inr ER_BAD_DB_ERROR, s1) =>
          match init_db s1 with
          | (inr e, s2) => (inr e, s2)
          | (inl _, s2) => get_db_connection f s2
          end
      | (inr e, s1) => (inr e, s1)
      end
  end.

Definition no_sql : server :=
  {| srv_up := true; db_exists := false; create_sql := None;
     stmt_ok := fun _ => true; srv_open := 0; executed := []; commits := 0 |}.

Definition schema_sql : string :=
  "CREATE TABLE IF NOT EXISTS recipes (id INT) ;
 ; INSERT INTO recipes VALUES (1);
".

Definition with_schema : server :=
  {| srv_up := true; db_exists := true; create_sql := Some schema_sql;
     stmt_ok := fun _ => true; srv_open := 0; executed := []; commits := 0 |}.

Definition rejects_insert : server :=
  {| srv_up := true; db_exists := true; create_sql := Some schema_sql;
     stmt_ok := fun st => negb (String.prefix " INSERT" st);
     srv_open := 0; executed := []; commits := 0 |}.

Example init_schema :
  init_db with_schema =
  (inl tt, {| srv_up := true; db_exists := true; create_sql := Some schema_sql;
              stmt_ok := fun _ => true; srv_open := 0;
              executed := ["CREATE TABLE IF NOT EXISTS recipes (id INT) ;";
                           " INSERT INTO recipes VALUES (1);"];
              commits := 1 |}).
Proof. reflexivity. Qed.

Lemma py_split_nonempty sep s : py_split sep s <> [].
Proof.
  destruct s as [|c r]; cbn [py_split]; [discriminate|].
  destruct (Ascii.eqb c sep); [discriminate|].
  destruct (py_split sep r); discriminate.
Qed.

(** X: [str.split(';')] loses nothing: joining the pieces with [';']
    gives back the text of [create.sql], and no piece holds a [';'];
    so [init_db] runs the file's statements as they are written. *)
Theorem py_split_join sep s :
  String.concat (String sep "") (py_split sep s) = s /\
  Forall (fun p => forallb (fun x => negb (Ascii.eqb x sep)) (list_ascii_of_string p) = true)
    (py_split sep s).
Proof.
  induction s as [|c r [IHj IHf]]; cbn [py_split].
  - split; [reflexivity|]. constructor; [reflexivity|constructor].
  - pose proof (py_split_nonempty sep r) as Hne.
    destruct (Ascii.eqb c sep) eqn:E.
    + apply Ascii.eqb_eq in E. subst c. split.
      * destruct (py_split sep r) as [|p ps]; [contradiction|].
        cbn [String.concat]. rewrite <- IHj. reflexivity.
      * constructor; [reflexivity|exact IHf].
    + destruct (py_split sep r) as [|p ps]; [contradiction|]. split.
      * rewrite <- IHj. destruct ps; reflexivity.
      * inversion IHf; subst. constructor; [|assumption].
        cbn [list_ascii_of_string forallb]. rewrite E. assumption.
Qed.

(** The statements the loop runs for a list of pieces. *)
Definition statements (cmds : list string) : list string :=
  map (fun c => (c ++ ";")%string) (filter (fun c => negb (blank c)) cmds).

Lemma run_commands_ok cmds s s' :
  run_commands cmds s = (inl tt, s') ->
  s' = {| srv_up := srv_up s; db_exists := db_exists s; create_sql := create_sql s;
          stmt_ok := stmt_ok s; srv_open := srv_open s;
          executed := (executed s ++ statements cmds)%list; commits := commits s |} /\
  Forall (fun st => stmt_ok s st = true) (statements cmds).
Proof.
  revert s. induction cmds as [|c cs IH]; intros s H; cbn [run_commands] in H.
  - injection H as <-. destruct s; cbn. rewrite app_nil_r. split; [reflexivity|constructor].
  - unfold statements. cbn [filter]. destruct (blank c) eqn:Eb; cbn [negb].
    + apply IH, H.
    + destruct (stmt_ok s (c ++ ";")) eqn:Eo; [|discriminate].
      destruct (IH _ H) as [Hs Hf]. cbn [map]. split.
      * rewrite Hs. destruct s; cbn. rewrite <- app_assoc. reflexivity.
      * constructor; [exact Eo|]. destruct s; exact Hf.
Qed.

Lemma run_commands_err cmds s e s' :
  run_commands cmds s = (inr e, s') ->
  e = StatementError /\ srv_open s' = srv_open s /\ commits s' = commits s /\
  Exists (fun st => stmt_ok s st = false) (statements cmds).
Proof.
  revert s. induction cmds as [|c cs IH]; intros s H; cbn [run_commands] in H;
    [discriminate|].
  unfold statements. cbn [filter]. destruct (blank c) eqn:Eb; cbn [negb].
  - apply IH, H.
  - destruct (stmt_ok s (c ++ ";")) eqn:Eo.
    + destruct (IH _ H) as [He [Ho [Hc Hx]]]. cbn [map].
      repeat split; try assumption. apply Exists_cons_tl. destruct s; exact Hx.
    + inversion H; subst. repeat split. now apply Exists_cons_hd.
Qed.

(** X: a successful [init_db()] ran exactly the non-blank pieces of
    [create.sql] between [';'], in order, each with its [';'] put back,
    committed once and closed the connection it opened. *)
Theorem init_db_success s s' txt :
  create_sql s = Some txt ->
  init_db s = (inl tt, s') ->
  executed s' = (executed s ++ statements (py_split ";"%char txt))%list /\
  commits s' = S (commits s) /\ srv_open s' = srv_open s /\
  Forall (fun st => stmt_ok s st = true) (statements (py_split ";"%char txt)).
Proof.
  intros Hf H. unfold init_db, connect in H.
  destruct (srv_up s), (db_exists s); try discriminate.
  cbn [create_sql with_open] in H. rewrite Hf in H.
  destruct (run_commands _ _) as [[[]|e] s2] eqn:Er; [|discriminate].
  apply run_commands_ok in Er as [Hs Hall]. inversion H; subst. cbn.
  repeat split; destruct s; assumption.
Qed.

Lemma init_db_success_witness :
  create_sql with_schema = Some schema_sql /\
  init_db with_schema = (inl tt, snd (init_db with_schema)) /\
  executed (snd (init_db with_schema)) =
    (executed with_schema ++ statements (py_split ";"%char schema_sql))%list.
Proof.
  assert (Hf : create_sql with_schema = Some schema_sql) by reflexivity.
  assert (H : init_db with_schema = (inl tt, snd (init_db with_schema))) by reflexivity.
  exact (conj Hf (conj H (proj1 (init_db_success _ _ _ Hf H)))).
Defined.

(** X: when [init_db()] fails after connecting (no [create.sql], or a
    statement the server rejects), it re-raises without
    [conn.commit()] and without [conn.close()]: the connection it
    opened is left open. *)
Theorem init_db_failure_leaves_open s e s' :
  srv_up s = true -> db_exists s = true ->
  init_db s = (inr e, s') ->
  srv_open s' = S (srv_open s) /\ commits s' = commits s /\
  (e = FileNotFoundError \/ e = StatementError).
Proof.
  intros Hu He H. unfold init_db, connect in H. rewrite Hu, He in H.
  cbn [create_sql with_open] in H.
  destruct (create_sql s) as [txt|].
  - destruct (run_commands _ _) as [[[]|e'] s2] eqn:Er; [discriminate|].
    inversion H; subst.
    apply run_commands_err in Er as [-> [Ho [Hc _]]]. cbn in Ho, Hc.
    repeat split; auto.
  - inversion H; subst. cbn. repeat split; auto.
Qed.

Lemma init_db_failure_leaves_open_witness :
  srv_up rejects_insert = true /\ db_exists rejects_insert = true /\
  init_db rejects_insert = (inr StatementError, snd (init_db rejects_insert)) /\
  srv_open (snd (init_db rejects_insert)) = 1%nat.
Proof.
  assert (H : init_db rejects_insert = (inr StatementError, snd (init_db rejects_insert)))
    by reflexivity.
  destruct (init_db_failure_leaves_open rejects_insert _ _ eq_refl eq_refl H) as [Ho _].
  exact (conj eq_refl (conj eq_refl (conj H Ho))).
Defined.

(** X: [init_db()] connects to the database [DB_NAME] it is meant to
    create, so on a missing database it raises [ER_BAD_DB_ERROR] at
    once; the retry in [get_db_connection()] is never reached, and
    [get_db_connection()] behaves exactly as a single [connect()]:
    a missing database is never created and the error reaches the
    handlers. *)
Theorem get_db_connection_is_connect n s :
  get_db_connection (S n) s = connect s.
Proof.
  cbn [get_db_connection]. unfold connect.
  destruct (srv_up s) eqn:Hu; [destruct (db_exists s) eqn:He|]; try reflexivity.
  unfold init_db, connect. rewrite Hu, He. reflexivity.
Qed.

(** X: [init_db()] itself raises [ER_BAD_DB_ERROR] whenever the
    database is missing, running no statement and opening no
    connection, whatever [create.sql] holds. *)
Theorem init_db_missing_db s :
  db_exists s = false ->
  init_db s = (inr (if srv_up s then ER_BAD_DB_ERROR else CR_CONN_HOST_ERROR), s).
Proof.
  intros He. unfold init_db, connect. rewrite He. destruct (srv_up s); reflexivity.
Qed.

Lemma init_db_missing_db_witness :
  db_exists no_sql = false /\ init_db no_sql = (inr ER_BAD_DB_ERROR, no_sql).
Proof. exact (conj eq_refl (init_db_missing_db no_sql eq_refl)). Defined.

End DbInit.
